(** * Task management service: the task / subtask store of [main.py]

    A shallow embedding of the request handlers of [src/main.py] and the
    properties of its progress and status logic.

    The three module-level dictionaries [users], [tasks] and [subtasks] are
    the fields of one [Store] record.  Every handler is a computation in a
    state-and-exception monad: an exception leaves the store as the handler
    had mutated it so far, which is what a raise inside a FastAPI handler
    does to module-level dictionaries. *)

From Stdlib Require Import QArith.
From stdpp Require Import gmap strings list fin_maps.

Local Open Scope Z_scope.

(** ** Values *)

(** [uuid.UUID]: a 128-bit identifier. *)
Abbreviation UUID := N (only parsing).

(** [datetime]: seconds since the epoch. *)
Abbreviation datetime := Z (only parsing).

(** [class Status(str, Enum)] declares exactly these three members. *)
Inductive Status := COMPLETED | INCOMPLETE | PENDING.

Global Instance Status_eq_dec : EqDecision Status.
Proof. solve_decision. Defined.

(** The stored user dictionary: [{**user.dict(), "session_token": ...}]. *)
Module User.
Record t := mk
  { username : string;
    name : string;
    email : string;
    session_token : string }.
End User.

(** The stored task dictionary of [create_task].  [progress_percentage] is
    the integer 0 or 100, or the quotient computed by [calculate_progress];
    it is kept as a rational number. *)
Module Task.
Record t := mk
  { title : string;
    description : option string;
    due_date : option datetime;
    priority : option Z;
    id : UUID;
    user_id : UUID;
    status : Status;
    progress_percentage : Q;
    sub_tasks_id : list UUID }.

Definition set_status (v : Status) (d : t) : t :=
  mk (title d) (description d) (due_date d) (priority d) (id d) (user_id d)
     v (progress_percentage d) (sub_tasks_id d).

Definition set_progress_percentage (v : Q) (d : t) : t :=
  mk (title d) (description d) (due_date d) (priority d) (id d) (user_id d)
     (status d) v (sub_tasks_id d).
End Task.

(** The stored subtask dictionary of [create_subtask].  Its
    [progress_percentage] is only ever assigned the literals 0 and 100. *)
Module SubTask.
Record t := mk
  { task_id : UUID;
    title : string;
    description : option string;
    due_date : option datetime;
    priority : option Z;
    id : UUID;
    user_id : UUID;
    status : Status;
    progress_percentage : Z }.

Definition set_status (v : Status) (d : t) : t :=
  mk (task_id d) (title d) (description d) (due_date d) (priority d) (id d)
     (user_id d) v (progress_percentage d).

Definition set_progress_percentage (v : Z) (d : t) : t :=
  mk (task_id d) (title d) (description d) (due_date d) (priority d) (id d)
     (user_id d) (status d) v.
End SubTask.

(** ** Request bodies *)

Module CreateUserRequest.
Record t := mk { username : string; name : string; email : string }.
End CreateUserRequest.

Module CreateTaskRequest.
Record t := mk
  { title : string;
    description : option string;
    due_date : option datetime;
    priority : option Z }.
End CreateTaskRequest.

Module CreateSubTaskRequest.
Record t := mk
  { task_id : UUID;
    title : string;
    description : option string;
    due_date : option datetime;
    priority : option Z }.
End CreateSubTaskRequest.

Module StatusUpdateRequest.
Record t := mk
  { task_id : UUID;
    subtask_id : option UUID;
    status : Status }.
End StatusUpdateRequest.

(** ** The store *)

(** [users] keeps its insertion order, which [authenticate_user] scans.
    [tasks] and [subtasks] are accessed by key; [get_tasks] alone iterates
    over [tasks], to build a dictionary, and the order of the keys in its
    answer is not modelled. *)
Record Store := mkStore
  { users : list (UUID * User.t);
    tasks : gmap UUID Task.t;
    subtasks : gmap UUID (list SubTask.t) }.

Definition empty_store : Store := mkStore [] ∅ ∅.

Definition with_users (v : list (UUID * User.t)) (s : Store) : Store :=
  mkStore v (tasks s) (subtasks s).
Definition with_tasks (v : gmap UUID Task.t) (s : Store) : Store :=
  mkStore (users s) v (subtasks s).
Definition with_subtasks (v : gmap UUID (list SubTask.t)) (s : Store) : Store :=
  mkStore (users s) (tasks s) v.

(** ** Exceptions and the handler monad *)

Inductive exn :=
| HTTPException (status_code : Z) (detail : string)
| AttributeError (attr : string)
| KeyError (key : UUID).

Inductive result (A : Type) :=
| Ok (a : A)
| Raise (e : exn).
Global Arguments Ok {A} a.
Global Arguments Raise {A} e.

Definition M (A : Type) : Type := Store → result A * Store.

Global Instance M_ret : MRet M := λ A a s, (Ok a, s).
Global Instance M_bind : MBind M := λ A B k m s,
  match m s with
  | (Ok a, s') => k a s'
  | (Raise e, s') => (Raise e, s')
  end.

Global Instance M_fmap : FMap M := λ A B f m, a ← m; mret (f a).

Definition raise {A} (e : exn) : M A := λ s, (Raise e, s).
Definition get_store : M Store := λ s, (Ok s, s).
Definition put_store (s' : Store) : M unit := λ _, (Ok (), s').

(** [for x in xs: body(x)], over the positions of the list iterated. *)
Fixpoint for_each {A} (xs : list A) (body : A → M unit) : M unit :=
  match xs with
  | [] => mret ()
  | x :: xs' => body x ;; for_each xs' body
  end.

(** *** Dictionary primitives *)

(** [k in tasks] *)
Definition tasks_contains (k : UUID) : M bool :=
  s ← get_store; mret (bool_decide (is_Some (tasks s !! k))).

(** [tasks[k]] *)
Definition tasks_getitem (k : UUID) : M Task.t :=
  s ← get_store;
  match tasks s !! k with
  | Some d => mret d
  | None => raise (KeyError k)
  end.

(** [tasks[k] = d] *)
Definition tasks_setitem (k : UUID) (d : Task.t) : M unit :=
  s ← get_store; put_store (with_tasks (<[k := d]> (tasks s)) s).

(** [tasks[k][field] = v], as an update [f] of the dictionary [tasks[k]] *)
Definition tasks_update (k : UUID) (f : Task.t → Task.t) : M unit :=
  d ← tasks_getitem k; tasks_setitem k (f d).

(** [k in subtasks] *)
Definition subtasks_contains (k : UUID) : M bool :=
  s ← get_store; mret (bool_decide (is_Some (subtasks s !! k))).

(** [subtasks[k]] *)
Definition subtasks_getitem (k : UUID) : M (list SubTask.t) :=
  s ← get_store;
  match subtasks s !! k with
  | Some l => mret l
  | None => raise (KeyError k)
  end.

(** [subtasks.get(k, [])] *)
Definition subtasks_get (k : UUID) : M (list SubTask.t) :=
  s ← get_store; mret (default [] (subtasks s !! k)).

(** [subtasks.setdefault(k, []).append(d)] *)
Definition subtasks_setdefault_append (k : UUID) (d : SubTask.t) : M unit :=
  s ← get_store;
  put_store (with_subtasks (<[k := default [] (subtasks s !! k) ++ [d]]> (subtasks s)) s).

(** [sub[field] = v] where [sub] is the dictionary at position [i] of the
    list [subtasks[k]]: the dictionary is mutated in place. *)
Definition subtasks_update (k : UUID) (i : nat) (f : SubTask.t → SubTask.t) : M unit :=
  l ← subtasks_getitem k;
  s ← get_store;
  put_store (with_subtasks (<[k := alter f i l]> (subtasks s)) s).

(** The dictionary at position [i] of [subtasks[k]], as the loop variable
    [sub] sees it when the loop reaches that position. *)
Definition subtasks_item (k : UUID) (i : nat) : M SubTask.t :=
  l ← subtasks_getitem k;
  match l !! i with
  | Some d => mret d
  | None => raise (KeyError k)
  end.

(** *** Attribute lookup on the enumeration *)

(** [Status.<attr>]: a member for the three declared names, and an
    [AttributeError] for every other name. *)
Definition Status_getattr (attr : string) : M Status :=
  if String.eqb attr "COMPLETED" then mret COMPLETED
  else if String.eqb attr "INCOMPLETE" then mret INCOMPLETE
  else if String.eqb attr "PENDING" then mret PENDING
  else raise (AttributeError attr).

(** ** The handlers of [main.py] *)

(** [sum(...)] over integers: starts from 0 and adds from the left. *)
Definition sum (xs : list Z) : Z := fold_left Z.add xs 0.

(** [calculate_progress].  The true division of two integers is taken as
    their exact quotient. *)
Definition calculate_progress (task_id : UUID) : M Q :=
  task_subtasks ← subtasks_get task_id;
  match task_subtasks with
  | [] =>
      d ← tasks_getitem task_id;
      c ← Status_getattr "COMPLETED";
      mret (if bool_decide (Task.status d = c) then 100%Q else 0%Q)
  | _ :: _ =>
      let completed := sum (SubTask.progress_percentage <$> task_subtasks) in
      mret (inject_Z completed / inject_Z (Z.of_nat (length task_subtasks)))%Q
  end.

(** The scan of [authenticate_user]: the first user, in insertion order,
    whose token is the one presented. *)
Fixpoint find_session (us : list (UUID * User.t)) (x_session_token : string)
  : option UUID :=
  match us with
  | [] => None
  | (user_id, user_data) :: us' =>
      if String.eqb (User.session_token user_data) x_session_token
      then Some user_id
      else find_session us' x_session_token
  end.

Definition authenticate_user (x_session_token : string) : M UUID :=
  s ← get_store;
  match find_session (users s) x_session_token with
  | Some user_id => mret user_id
  | None => raise (HTTPException 401 "Invalid session token")
  end.

(** [d[k] = v] on an insertion-ordered dictionary: an existing key keeps
    its position, a new key goes last. *)
Fixpoint dict_setitem {V} (k : UUID) (v : V) (d : list (UUID * V)) : list (UUID * V) :=
  match d with
  | [] => [(k, v)]
  | (k', v') :: d' =>
      if N.eqb k' k then (k, v) :: d' else (k', v') :: dict_setitem k v d'
  end.

(** [create_user].  [uuid4] and [token_hex] are the values drawn by
    [uuid.uuid4()] and [secrets.token_hex(16)]. *)
Definition create_user (user : CreateUserRequest.t) (uuid4 : UUID) (token_hex : string)
  : M (UUID * string * User.t) :=
  let user_id := uuid4 in
  let session_token := token_hex in
  let user_data :=
    User.mk (CreateUserRequest.username user) (CreateUserRequest.name user)
            (CreateUserRequest.email user) session_token in
  s ← get_store;
  put_store (with_users (dict_setitem user_id user_data (users s)) s) ;;
  mret (user_id, session_token, user_data).

(** [create_task].  [uuid4] is the value drawn by [uuid.uuid4()]. *)
Definition create_task (task : CreateTaskRequest.t) (user_id : UUID) (uuid4 : UUID)
  : M Task.t :=
  let task_id := uuid4 in
  c ← Status_getattr "PENDING";
  tasks_setitem task_id
    (Task.mk (CreateTaskRequest.title task) (CreateTaskRequest.description task)
             (CreateTaskRequest.due_date task) (CreateTaskRequest.priority task)
             task_id user_id c 0%Q []) ;;
  tasks_getitem task_id.

(** [create_subtask].  [uuid4] is the value drawn by [uuid.uuid4()]. *)
Definition create_subtask (subtask : CreateSubTaskRequest.t) (user_id : UUID) (uuid4 : UUID)
  : M SubTask.t :=
  let task_id := CreateSubTaskRequest.task_id subtask in
  known ← tasks_contains task_id;
  if negb known then raise (HTTPException 404 "Task not found") else
  let subtask_id := uuid4 in
  c ← Status_getattr "PENDING";
  let subtask_obj :=
    SubTask.mk task_id (CreateSubTaskRequest.title subtask)
               (CreateSubTaskRequest.description subtask)
               (CreateSubTaskRequest.due_date subtask)
               (CreateSubTaskRequest.priority subtask)
               subtask_id user_id c 0 in
  subtasks_setdefault_append task_id subtask_obj ;;
  p ← calculate_progress task_id;
  tasks_update task_id (Task.set_progress_percentage p) ;;
  c' ← Status_getattr "PENDING";
  tasks_update task_id (Task.set_status c') ;;
  mret subtask_obj.

(** [get_tasks] *)
Definition get_tasks (user_id : UUID) : M (gmap UUID Task.t) :=
  s ← get_store;
  mret (filter (λ kv : UUID * Task.t, Task.user_id kv.2 = user_id) (tasks s) : gmap UUID Task.t).

(** [task_id not in tasks or tasks[task_id]['user_id'] != user_id], the
    guard shared by [get_task], [update_task_status] and [delete_task]. *)
Definition not_in_tasks_or_not_owner (task_id user_id : UUID) : M bool :=
  known ← tasks_contains task_id;
  if negb known then mret true else
  d ← tasks_getitem task_id;
  mret (negb (bool_decide (Task.user_id d = user_id))).

(** [get_task] *)
Definition get_task (task_id : UUID) (user_id : UUID) : M (Task.t * list SubTask.t) :=
  denied ← not_in_tasks_or_not_owner task_id user_id;
  if (denied : bool) then raise (HTTPException 404 "Task not found") else
  d ← tasks_getitem task_id;
  l ← subtasks_get task_id;
  mret (d, l).

(** [update_task_status] *)
Definition update_task_status (task_id : UUID) (update : StatusUpdateRequest.t)
    (user_id : UUID) : M string :=
  denied ← not_in_tasks_or_not_owner task_id user_id;
  if (denied : bool) then raise (HTTPException 404 "Task not found") else
  tasks_update task_id (Task.set_status (StatusUpdateRequest.status update)) ;;
  c ← Status_getattr "COMPLETE";
  (if bool_decide (StatusUpdateRequest.status update = c) then
     tasks_update task_id (Task.set_progress_percentage 100%Q) ;;
     l ← subtasks_getitem task_id;
     for_each (seq 0 (length l)) (λ i,
       c1 ← Status_getattr "COMPLETE";
       if bool_decide (StatusUpdateRequest.status update = c1) then
         c2 ← Status_getattr "COMPLETE";
         subtasks_update task_id i (SubTask.set_status c2) ;;
         subtasks_update task_id i (SubTask.set_progress_percentage 100)
       else mret ())
   else mret ()) ;;
  mret "Task status updated successfully".

(** The guard of [update_sub_task_status]. *)
Definition task_or_subtask_missing (task_id subtask_id : UUID) : M bool :=
  known ← tasks_contains task_id;
  if negb known then mret true else
  listed ← subtasks_contains task_id;
  if negb listed then mret true else
  l ← subtasks_getitem task_id;
  mret (negb (existsb (λ sub, N.eqb (SubTask.id sub) subtask_id) l)).

(** The body of the loop of [update_sub_task_status], at position [i] of
    [subtasks[task_id]]. *)
Definition update_sub_task_status_body (task_id subtask_id : UUID)
    (update : StatusUpdateRequest.t) (i : nat) : M unit :=
  sub ← subtasks_item task_id i;
  if N.eqb (SubTask.id sub) subtask_id then
    subtasks_update task_id i (SubTask.set_status (StatusUpdateRequest.status update)) ;;
    c ← Status_getattr "COMPLETE";
    if bool_decide (StatusUpdateRequest.status update = c) then
      subtasks_update task_id i (SubTask.set_progress_percentage 100)
    else mret ()
  else mret ().

(** [update_sub_task_status] *)
Definition update_sub_task_status (task_id subtask_id : UUID)
    (update : StatusUpdateRequest.t) (user_id : UUID) : M string :=
  missing ← task_or_subtask_missing task_id subtask_id;
  if (missing : bool) then raise (HTTPException 404 "Task or Subtask not found") else
  l ← subtasks_getitem task_id;
  for_each (seq 0 (length l)) (update_sub_task_status_body task_id subtask_id update) ;;
  p ← calculate_progress task_id;
  tasks_update task_id (Task.set_progress_percentage p) ;;
  mret "Subtask status updated successfully".

(** [delete_task] *)
Definition delete_task (task_id : UUID) (user_id : UUID) : M string :=
  denied ← not_in_tasks_or_not_owner task_id user_id;
  if (denied : bool) then raise (HTTPException 404 "Task not found") else
  s ← get_store;
  put_store (with_tasks (delete task_id (tasks s)) s) ;;
  s' ← get_store;
  put_store (with_subtasks (delete task_id (subtasks s')) s') ;;
  mret "Task deleted successfully".

(** ** Requests, responses and reachable stores *)

(** One request to the service, with the caller already resolved to a
    [user_id] and with the values the handler draws at random. *)
Inductive Op :=
| OpCreateUser (user : CreateUserRequest.t) (uuid4 : UUID) (token_hex : string)
| OpCreateTask (task : CreateTaskRequest.t) (user_id : UUID) (uuid4 : UUID)
| OpCreateSubtask (subtask : CreateSubTaskRequest.t) (user_id : UUID) (uuid4 : UUID)
| OpGetTasks (user_id : UUID)
| OpGetTask (task_id : UUID) (user_id : UUID)
| OpUpdateTaskStatus (task_id : UUID) (update : StatusUpdateRequest.t) (user_id : UUID)
| OpUpdateSubTaskStatus (task_id subtask_id : UUID) (update : StatusUpdateRequest.t)
    (user_id : UUID)
| OpDeleteTask (task_id : UUID) (user_id : UUID).

Inductive Response :=
| RUser (user_id : UUID) (session_token : string) (user : User.t)
| RTask (task : Task.t)
| RSubTask (subtask : SubTask.t)
| RTasks (owned : gmap UUID Task.t)
| RTaskDetail (task : Task.t) (subs : list SubTask.t)
| RMessage (message : string).

Definition handle (op : Op) : M Response :=
  match op with
  | OpCreateUser user uuid4 token_hex =>
      '(user_id, session_token, user_data) ← create_user user uuid4 token_hex;
      mret (RUser user_id session_token user_data)
  | OpCreateTask task user_id uuid4 => RTask <$> create_task task user_id uuid4
  | OpCreateSubtask subtask user_id uuid4 =>
      RSubTask <$> create_subtask subtask user_id uuid4
  | OpGetTasks user_id => RTasks <$> get_tasks user_id
  | OpGetTask task_id user_id =>
      '(d, l) ← get_task task_id user_id; mret (RTaskDetail d l)
  | OpUpdateTaskStatus task_id update user_id =>
      RMessage <$> update_task_status task_id update user_id
  | OpUpdateSubTaskStatus task_id subtask_id update user_id =>
      RMessage <$> update_sub_task_status task_id subtask_id update user_id
  | OpDeleteTask task_id user_id => RMessage <$> delete_task task_id user_id
  end.

(** The store a computation leaves behind and the outcome it reports. *)
Definition store_after {A} (m : M A) (s : Store) : Store := (m s).2.
Definition outcome {A} (m : M A) (s : Store) : result A := (m s).1.

(** The store after a sequence of requests: each request runs on the store
    its predecessor left, whether that one returned or raised. *)
Definition run (ops : list Op) (s : Store) : Store :=
  fold_left (λ s' op, store_after (handle op) s') ops s.

Inductive reachable : Store → Prop :=
| reachable_empty : reachable empty_store
| reachable_step s op : reachable s → reachable (store_after (handle op) s).

(** A task's subtasks are the list [subtasks.get(task_id, [])]. *)
Definition subtasks_of (s : Store) (task_id : UUID) : list SubTask.t :=
  default [] (subtasks s !! task_id).

(** The arithmetic mean of a list of integers. *)
Definition mean (xs : list Z) : Q :=
  (inject_Z (foldr Z.add 0%Z xs) / inject_Z (Z.of_nat (length xs)))%Q.


(** The subtask dictionary that [create_subtask] builds. *)
Definition new_subtask (subtask : CreateSubTaskRequest.t) (user_id uuid4 : UUID)
  : SubTask.t :=
  SubTask.mk (CreateSubTaskRequest.task_id subtask) (CreateSubTaskRequest.title subtask)
             (CreateSubTaskRequest.description subtask)
             (CreateSubTaskRequest.due_date subtask)
             (CreateSubTaskRequest.priority subtask)
             uuid4 user_id PENDING 0.

(** ** Invariant of the reachable stores *)

(** Every stored progress is the number zero: a task's as a rational, a
    subtask's as an integer. *)
Definition progress_zero (s : Store) : Prop :=
  map_Forall (λ _ d, (Task.progress_percentage d == 0)%Q) (tasks s) ∧
  map_Forall (λ _ l, Forall (λ sub, SubTask.progress_percentage sub = 0) l) (subtasks s).

(** ** A worked session *)

Definition alice : UUID := 1%N.
Definition bob : UUID := 2%N.

(** Alice and Bob register, Alice creates task 10. *)
Definition session_task : list Op :=
  [ OpCreateUser (CreateUserRequest.mk "alice" "Alice" "alice@example.org") alice "a1";
    OpCreateUser (CreateUserRequest.mk "bob" "Bob" "bob@example.org") bob "b2";
    OpCreateTask (CreateTaskRequest.mk "report" None None (Some 1)) alice 10%N ].

(** Alice then adds subtasks 20 and 21 to task 10. *)
Definition session_subtasks : list Op :=
  session_task ++
  [ OpCreateSubtask (CreateSubTaskRequest.mk 10%N "draft" None None (Some 1)) alice 20%N;
    OpCreateSubtask (CreateSubTaskRequest.mk 10%N "review" None None (Some 1)) alice 21%N ].

Definition store_task : Store := run session_task empty_store.
Definition store_subtasks : Store := run session_subtasks empty_store.

(** Task 10 and its two subtasks as [store_subtasks] holds them. *)
Definition task_10 : Task.t :=
  Task.mk "report" None None (Some 1) 10%N alice PENDING (0 # 2) [].
Definition subtask_20 : SubTask.t :=
  SubTask.mk 10%N "draft" None None (Some 1) 20%N alice PENDING 0.
Definition subtask_21 : SubTask.t :=
  SubTask.mk 10%N "review" None None (Some 1) 21%N alice PENDING 0.

(** The body of [PATCH .../status] asking for [status]. *)
Definition set_to (status : Status) : StatusUpdateRequest.t :=
  StatusUpdateRequest.mk 10%N None status.

(** ** Reading the user dictionary, and the shape of the reachable stores *)

(** [d.get(k)] on an insertion-ordered dictionary. *)
Fixpoint dict_get {V} (k : UUID) (d : list (UUID * V)) : option V :=
  match d with
  | [] => None
  | (k', v') :: d' => if N.eqb k' k then Some v' else dict_get k d'
  end.

(** The identifier a [create_user] request draws is not yet a key of
    [users]; every other request draws no user identifier. *)
Definition draws_new_user_id (op : Op) (s : Store) : Prop :=
  match op with
  | OpCreateUser _ uuid4 _ => uuid4 ∉ (users s).*1
  | _ => True
  end.

(** Every task is stored under its own [id], with an empty
    [sub_tasks_id]. *)
Definition tasks_keyed (s : Store) : Prop :=
  map_Forall (λ k d, Task.id d = k ∧ Task.sub_tasks_id d = []) (tasks s).

(** Every list of [subtasks] is non-empty, sits under the key of a stored
    task, and holds subtasks whose [task_id] is that key. *)
Definition subtasks_attached (s : Store) : Prop :=
  map_Forall (λ k l, l ≠ [] ∧ is_Some (tasks s !! k) ∧
                     Forall (λ sub, SubTask.task_id sub = k) l) (subtasks s).

(** The worked session after Alice has deleted task 10. *)
Definition store_deleted : Store :=
  store_after (delete_task 10%N alice) store_subtasks.

(** ** What each handler computes *)

Ltac unfold_M :=
  unfold store_after, outcome, tasks_update, subtasks_update, subtasks_item,
    tasks_setitem, tasks_getitem, tasks_contains, subtasks_contains,
    subtasks_getitem, subtasks_get, subtasks_setdefault_append,
    fmap, M_fmap, mbind, M_bind, mret, M_ret, raise, get_store, put_store.

Lemma Status_getattr_COMPLETE s :
  Status_getattr "COMPLETE" s = (Raise (AttributeError "COMPLETE"), s).
Proof. reflexivity. Qed.

Lemma not_in_tasks_or_not_owner_run task_id user_id s :
  not_in_tasks_or_not_owner task_id user_id s =
  (Ok (match tasks s !! task_id with
       | Some d => negb (bool_decide (Task.user_id d = user_id))
       | None => true
       end), s).
Proof.
  unfold not_in_tasks_or_not_owner. unfold_M. simpl.
  destruct (tasks s !! task_id) as [d|] eqn:E; simpl; [|done].
  rewrite E. done.
Qed.

Lemma get_task_run task_id user_id s :
  get_task task_id user_id s =
  match tasks s !! task_id with
  | Some d =>
      if bool_decide (Task.user_id d = user_id)
      then (Ok (d, default [] (subtasks s !! task_id)), s)
      else (Raise (HTTPException 404 "Task not found"), s)
  | None => (Raise (HTTPException 404 "Task not found"), s)
  end.
Proof.
  unfold get_task. unfold mbind at 1. unfold M_bind.
  rewrite not_in_tasks_or_not_owner_run.
  destruct (tasks s !! task_id) as [d|] eqn:E; [|done].
  destruct (bool_decide (Task.user_id d = user_id)); simpl; [|done].
  unfold_M. simpl. rewrite E. done.
Qed.

Lemma update_task_status_run task_id update user_id s :
  update_task_status task_id update user_id s =
  match tasks s !! task_id with
  | Some d =>
      if bool_decide (Task.user_id d = user_id)
      then (Raise (AttributeError "COMPLETE"),
            with_tasks (<[task_id := Task.set_status (StatusUpdateRequest.status update) d]>
                          (tasks s)) s)
      else (Raise (HTTPException 404 "Task not found"), s)
  | None => (Raise (HTTPException 404 "Task not found"), s)
  end.
Proof.
  unfold update_task_status. unfold mbind at 1. unfold M_bind.
  rewrite not_in_tasks_or_not_owner_run.
  destruct (tasks s !! task_id) as [d|] eqn:E; [|done].
  destruct (bool_decide (Task.user_id d = user_id)); simpl; [|done].
  unfold_M. simpl. rewrite E. done.
Qed.

Lemma delete_task_run task_id user_id s :
  delete_task task_id user_id s =
  match tasks s !! task_id with
  | Some d =>
      if bool_decide (Task.user_id d = user_id)
      then (Ok "Task deleted successfully",
            mkStore (users s) (delete task_id (tasks s)) (delete task_id (subtasks s)))
      else (Raise (HTTPException 404 "Task not found"), s)
  | None => (Raise (HTTPException 404 "Task not found"), s)
  end.
Proof.
  unfold delete_task. unfold mbind at 1. unfold M_bind.
  rewrite not_in_tasks_or_not_owner_run.
  destruct (tasks s !! task_id) as [d|] eqn:E; [|done].
  destruct (bool_decide (Task.user_id d = user_id)); simpl; done.
Qed.

Lemma create_task_run task user_id uuid4 s :
  create_task task user_id uuid4 s =
  let d := Task.mk (CreateTaskRequest.title task) (CreateTaskRequest.description task)
             (CreateTaskRequest.due_date task) (CreateTaskRequest.priority task)
             uuid4 user_id PENDING 0%Q [] in
  (Ok d, with_tasks (<[uuid4 := d]> (tasks s)) s).
Proof.
  unfold create_task. unfold_M. simpl. rewrite lookup_insert_eq. done.
Qed.

Lemma create_subtask_run subtask user_id uuid4 s :
  create_subtask subtask user_id uuid4 s =
  let task_id := CreateSubTaskRequest.task_id subtask in
  match tasks s !! task_id with
  | None => (Raise (HTTPException 404 "Task not found"), s)
  | Some d =>
      let sub := new_subtask subtask user_id uuid4 in
      let l := default [] (subtasks s !! task_id) ++ [sub] in
      let p := (inject_Z (sum (SubTask.progress_percentage <$> l))
                / inject_Z (Z.of_nat (length l)))%Q in
      (Ok sub,
       mkStore (users s)
         (<[task_id := Task.set_status PENDING (Task.set_progress_percentage p d)]> (tasks s))
         (<[task_id := l]> (subtasks s)))
  end.
Proof.
  unfold create_subtask, calculate_progress. unfold_M. simpl.
  destruct (tasks s !! CreateSubTaskRequest.task_id subtask) as [d|] eqn:E; simpl; [|done].
  rewrite lookup_insert_eq. simpl.
  destruct (default [] (subtasks s !! CreateSubTaskRequest.task_id subtask) ++ _) as [|x l] eqn:El.
  { by apply app_eq_nil in El as [_ ?]. }
  simpl. rewrite E. simpl. rewrite lookup_insert_eq. simpl.
  unfold with_tasks, with_subtasks. simpl. rewrite insert_insert_eq. done.
Qed.

(** *** The loop of [update_sub_task_status] *)

Section SubTaskLoop.
Variables (task_id subtask_id : UUID) (update : StatusUpdateRequest.t).

Let body := update_sub_task_status_body task_id subtask_id update.
Let new_status := StatusUpdateRequest.status update.

Lemma body_other s l i x :
  subtasks s !! task_id = Some l → l !! i = Some x → SubTask.id x ≠ subtask_id →
  body i s = (Ok (), s).
Proof.
  intros Hl Hi Hne. unfold body, update_sub_task_status_body. unfold_M. simpl.
  rewrite Hl. simpl. rewrite Hi. simpl.
  destruct (N.eqb_spec (SubTask.id x) subtask_id); [done|]. done.
Qed.

Lemma body_match s l i x :
  subtasks s !! task_id = Some l → l !! i = Some x → SubTask.id x = subtask_id →
  body i s =
  (Raise (AttributeError "COMPLETE"),
   with_subtasks (<[task_id := alter (SubTask.set_status new_status) i l]> (subtasks s)) s).
Proof.
  intros Hl Hi He. unfold body, update_sub_task_status_body. unfold_M. simpl.
  rewrite Hl. simpl. rewrite Hi. simpl.
  rewrite <- He, N.eqb_refl. simpl. rewrite Hl. done.
Qed.

(** The loop stops at the first position holding the identifier. *)
Lemma loop_first_match s l i x :
  subtasks s !! task_id = Some l →
  l !! i = Some x → SubTask.id x = subtask_id →
  (∀ j y, l !! j = Some y → (j < i)%nat → SubTask.id y ≠ subtask_id) →
  ∀ n a, (a ≤ i < a + n)%nat →
  for_each (seq a n) body s =
  (Raise (AttributeError "COMPLETE"),
   with_subtasks (<[task_id := alter (SubTask.set_status new_status) i l]> (subtasks s)) s).
Proof.
  intros Hl Hi He Hmin. induction n as [|n IH]; intros a Ha; [lia|].
  simpl. unfold mbind, M_bind.
  destruct (decide (a = i)) as [->|Hai].
  - by rewrite (body_match s l i x).
  - assert (is_Some (l !! a)) as [y Hy].
    { apply lookup_lt_is_Some. apply lookup_lt_Some in Hi. lia. }
    rewrite (body_other s l a y); [|done|done|apply (Hmin a y); [done|lia]].
    apply IH. lia.
Qed.

Lemma task_or_subtask_missing_run s :
  task_or_subtask_missing task_id subtask_id s =
  (Ok (match tasks s !! task_id, subtasks s !! task_id with
       | Some _, Some l =>
           negb (existsb (λ sub, N.eqb (SubTask.id sub) subtask_id) l)
       | _, _ => true
       end), s).
Proof.
  unfold task_or_subtask_missing. unfold_M. simpl.
  destruct (tasks s !! task_id); simpl; [|done].
  destruct (subtasks s !! task_id) eqn:E; simpl; rewrite ?E; done.
Qed.

Lemma existsb_list_find (l : list SubTask.t) :
  existsb (λ sub, N.eqb (SubTask.id sub) subtask_id) l =
  bool_decide (is_Some (list_find (λ sub, SubTask.id sub = subtask_id) l)).
Proof.
  induction l as [|x l IH]; simpl; [done|].
  destruct (N.eqb_spec (SubTask.id x) subtask_id) as [He|Hne]; simpl.
  - rewrite decide_True by done. done.
  - rewrite decide_False by done. rewrite IH.
    destruct (list_find _ l) as [[]|]; done.
Qed.

Lemma update_sub_task_status_run user_id s :
  update_sub_task_status task_id subtask_id update user_id s =
  match tasks s !! task_id, subtasks s !! task_id with
  | Some _, Some l =>
      match list_find (λ sub, SubTask.id sub = subtask_id) l with
      | Some (i, _) =>
          (Raise (AttributeError "COMPLETE"),
           with_subtasks
             (<[task_id := alter (SubTask.set_status new_status) i l]> (subtasks s)) s)
      | None => (Raise (HTTPException 404 "Task or Subtask not found"), s)
      end
  | _, _ => (Raise (HTTPException 404 "Task or Subtask not found"), s)
  end.
Proof.
  unfold update_sub_task_status. unfold mbind at 1. unfold M_bind.
  rewrite task_or_subtask_missing_run.
  destruct (tasks s !! task_id) as [d|]; [|done].
  destruct (subtasks s !! task_id) as [l|] eqn:Hl; [|done].
  rewrite existsb_list_find.
  destruct (list_find _ l) as [[i x]|] eqn:Hf; simpl; [|done].
  apply list_find_Some in Hf as (Hi & He & Hmin).
  unfold mbind at 1. unfold M_bind. unfold subtasks_getitem at 1. unfold_M.
  simpl. rewrite Hl. simpl.
  fold (@mbind M _ unit string).
  pose proof (loop_first_match s l i x Hl Hi He) as Hloop.
  unfold body in Hloop. rewrite Hloop; [done| |].
  - intros j y Hj Hlt. by apply (Hmin j y).
  - apply lookup_lt_Some in Hi. lia.
Qed.
End SubTaskLoop.

(** ** Reachable stores *)

Lemma reachable_run ops : ∀ s, reachable s → reachable (run ops s).
Proof.
  induction ops as [|op ops IH]; intros s Hs; [done|].
  apply IH. by constructor.
Qed.

Lemma sum_zeros (xs : list Z) : Forall (λ x, x = 0) xs → sum xs = 0.
Proof.
  unfold sum. induction 1 as [|x xs -> _ IH]; [done|]. simpl. exact IH.
Qed.

Lemma mean_zeros (xs : list Z) : Forall (λ x, x = 0) xs → (mean xs == 0)%Q.
Proof.
  intros H. unfold mean.
  assert (foldr Z.add 0 xs = 0) as ->.
  { induction H as [|x xs -> _ IH]; [done|]. simpl. exact IH. }
  unfold Qdiv. apply Qmult_0_l.
Qed.

Lemma progress_zero_empty : progress_zero empty_store.
Proof. split; apply map_Forall_empty. Qed.

Lemma progress_zero_step op s :
  progress_zero s → progress_zero (store_after (handle op) s).
Proof.
  intros [Ht Hs]. unfold store_after.
  destruct op as [user u tok|task uid u|subtask uid u|uid|tid uid|tid upd uid
                 |tid sid upd uid|tid uid]; simpl; unfold fmap, M_fmap, mbind, M_bind.
  - done.
  - rewrite create_task_run. simpl. split; [|done].
    apply map_Forall_insert_2; [reflexivity|done].
  - rewrite create_subtask_run. simpl.
    destruct (tasks s !! CreateSubTaskRequest.task_id subtask) as [d|] eqn:E; [|done].
    simpl.
    assert (Forall (λ sub, SubTask.progress_percentage sub = 0)
              (default [] (subtasks s !! CreateSubTaskRequest.task_id subtask)
               ++ [new_subtask subtask uid u])) as Hall.
    { apply Forall_app_2; [|by repeat constructor].
      destruct (subtasks s !! CreateSubTaskRequest.task_id subtask) as [l|] eqn:El;
        [exact (Hs _ _ El)|constructor]. }
    split; simpl.
    + apply map_Forall_insert_2; [|done]. simpl.
      rewrite sum_zeros; [|by apply Forall_fmap]. unfold Qdiv. apply Qmult_0_l.
    + by apply map_Forall_insert_2.
  - done.
  - rewrite get_task_run.
    destruct (tasks s !! tid) as [d|]; [|done]. by case_bool_decide.
  - rewrite update_task_status_run.
    destruct (tasks s !! tid) as [d|] eqn:E; [|done].
    case_bool_decide; [|done]. simpl. split; [|done].
    apply map_Forall_insert_2; [exact (Ht _ _ E)|done].
  - rewrite update_sub_task_status_run.
    destruct (tasks s !! tid) as [d|]; [|done].
    destruct (subtasks s !! tid) as [l|] eqn:El; [|done].
    destruct (list_find _ l) as [[i x]|]; [|done]. simpl. split; [done|].
    apply map_Forall_insert_2; [|done].
    apply Forall_alter; [exact (Hs _ _ El)|done].
  - rewrite delete_task_run.
    destruct (tasks s !! tid) as [d|]; [|done].
    case_bool_decide; [|done]. simpl. split; by apply map_Forall_delete.
Qed.

Lemma reachable_progress_zero s : reachable s → progress_zero s.
Proof.
  induction 1 as [|s op _ IH]; [apply progress_zero_empty|by apply progress_zero_step].
Qed.

(** A handler that answers with an [HTTPException] has not written to the
    store: every such raise precedes the handler's first assignment. *)
Lemma http_exception_leaves_store op s status_code detail :
  outcome (handle op) s = Raise (HTTPException status_code detail) →
  store_after (handle op) s = s.
Proof.
  unfold store_after, outcome.
  destruct op as [user u tok|task uid u|subtask uid u|uid|tid uid|tid upd uid
                 |tid sid upd uid|tid uid]; simpl; unfold fmap, M_fmap, mbind, M_bind.
  - done.
  - by rewrite create_task_run.
  - rewrite create_subtask_run. simpl.
    by destruct (tasks s !! CreateSubTaskRequest.task_id subtask).
  - done.
  - rewrite get_task_run. destruct (tasks s !! tid); [|done]. by case_bool_decide.
  - rewrite update_task_status_run. destruct (tasks s !! tid); [|done].
    by case_bool_decide.
  - rewrite update_sub_task_status_run. destruct (tasks s !! tid); [|done].
    destruct (subtasks s !! tid) as [l|]; [|done].
    by destruct (list_find _ l) as [[]|].
  - rewrite delete_task_run. destruct (tasks s !! tid); [|done]. by case_bool_decide.
Qed.

(** ** Task status update *)

(** C1 (the code departs from the claim).  On a stored task owned by the
    caller, [update_task_status] with COMPLETED does not succeed: it writes
    the new status and then raises [AttributeError], because it compares
    with [Status.COMPLETE], a name the enumeration does not declare.  The
    task keeps the progress it had and the subtask lists are untouched. *)
Theorem update_task_status_completed_raises s task_id update user_id d :
  tasks s !! task_id = Some d →
  Task.user_id d = user_id →
  StatusUpdateRequest.status update = COMPLETED →
  outcome (update_task_status task_id update user_id) s
    = Raise (AttributeError "COMPLETE") ∧
  tasks (store_after (update_task_status task_id update user_id) s) !! task_id
    = Some (Task.set_status COMPLETED d) ∧
  subtasks (store_after (update_task_status task_id update user_id) s) = subtasks s.
Proof.
  intros Hd Hu Hc. unfold outcome, store_after.
  rewrite update_task_status_run, Hd, bool_decide_eq_true_2 by done. simpl.
  rewrite Hc, lookup_insert_eq. done.
Qed.

Lemma update_task_status_completed_raises_witness :
  outcome (update_task_status 10%N (set_to COMPLETED) alice) store_subtasks
    = Raise (AttributeError "COMPLETE") ∧
  tasks (store_after (update_task_status 10%N (set_to COMPLETED) alice) store_subtasks)
    !! 10%N
    = Some (Task.set_status COMPLETED task_10) ∧
  subtasks (store_after (update_task_status 10%N (set_to COMPLETED) alice) store_subtasks)
    = subtasks store_subtasks.
Proof.
  apply (update_task_status_completed_raises store_subtasks 10%N (set_to COMPLETED) alice);
    reflexivity.
Defined.

(** C2 (the code departs from the claim).  Both status updates can fail
    after they have written to the store: in the worked session the task
    status update and the subtask status update each raise
    [AttributeError], and each leaves a store that differs from the one it
    started from. *)
Theorem failed_status_update_mutates_store :
  (outcome (handle (OpUpdateTaskStatus 10%N (set_to INCOMPLETE) alice)) store_task
     = Raise (AttributeError "COMPLETE") ∧
   store_after (handle (OpUpdateTaskStatus 10%N (set_to INCOMPLETE) alice)) store_task
     ≠ store_task) ∧
  (outcome (handle (OpUpdateSubTaskStatus 10%N 21%N (set_to INCOMPLETE) alice)) store_subtasks
     = Raise (AttributeError "COMPLETE") ∧
   store_after (handle (OpUpdateSubTaskStatus 10%N 21%N (set_to INCOMPLETE) alice))
     store_subtasks
     ≠ store_subtasks).
Proof.
  split; (split; [reflexivity|]).
  - intros H. apply (f_equal (λ s, Task.status <$> tasks s !! 10%N)) in H.
    vm_compute in H. discriminate.
  - intros H.
    apply (f_equal (λ s, fmap (M := list) SubTask.status <$> subtasks s !! 10%N)) in H.
    vm_compute in H. discriminate.
Qed.

(** ** Subtask status update *)

Lemma list_find_id_is_Some (l : list SubTask.t) subtask_id sub :
  sub ∈ l → SubTask.id sub = subtask_id →
  is_Some (list_find (λ x, SubTask.id x = subtask_id) l).
Proof.
  intros Hin He.
  destruct (list_find _ l) as [p|] eqn:Hf; [by eexists|].
  apply list_find_None in Hf. rewrite Forall_forall in Hf.
  by destruct (Hf sub Hin).
Qed.

Lemma fmap_progress_alter_status (l : list SubTask.t) i v :
  SubTask.progress_percentage <$> alter (SubTask.set_status v) i l
  = SubTask.progress_percentage <$> l.
Proof.
  revert i. induction l as [|x l IH]; intros [|i]; simpl; [done..|].
  f_equal. apply IH.
Qed.

(** C3 (the code departs from the claim).  On an existing task and a
    subtask of it, [update_sub_task_status] does not succeed: it writes the
    requested status into the subtask and then raises [AttributeError] at
    the comparison with [Status.COMPLETE].  No subtask progress is changed,
    whatever the requested status, and the task dictionary is not written:
    the recomputation of the parent's progress is never reached. *)
Theorem update_sub_task_status_raises s task_id subtask_id update user_id d l sub :
  tasks s !! task_id = Some d →
  subtasks s !! task_id = Some l →
  sub ∈ l →
  SubTask.id sub = subtask_id →
  outcome (update_sub_task_status task_id subtask_id update user_id) s
    = Raise (AttributeError "COMPLETE") ∧
  tasks (store_after (update_sub_task_status task_id subtask_id update user_id) s)
    = tasks s ∧
  ∃ l', subtasks (store_after (update_sub_task_status task_id subtask_id update user_id) s)
          !! task_id = Some l' ∧
        SubTask.progress_percentage <$> l' = SubTask.progress_percentage <$> l.
Proof.
  intros Hd Hl Hin He. unfold outcome, store_after.
  rewrite update_sub_task_status_run, Hd, Hl.
  destruct (list_find_id_is_Some l subtask_id sub Hin He) as [[i x] ->]. simpl.
  repeat split. eexists. rewrite lookup_insert_eq. split; [done|].
  apply fmap_progress_alter_status.
Qed.

Lemma update_sub_task_status_raises_witness :
  outcome (update_sub_task_status 10%N 21%N (set_to COMPLETED) alice) store_subtasks
    = Raise (AttributeError "COMPLETE") ∧
  tasks (store_after (update_sub_task_status 10%N 21%N (set_to COMPLETED) alice)
           store_subtasks)
    = tasks store_subtasks ∧
  ∃ l', subtasks (store_after (update_sub_task_status 10%N 21%N (set_to COMPLETED) alice)
                    store_subtasks) !! 10%N = Some l' ∧
        SubTask.progress_percentage <$> l'
        = SubTask.progress_percentage <$> [subtask_20; subtask_21].
Proof.
  apply (update_sub_task_status_raises store_subtasks 10%N 21%N (set_to COMPLETED) alice
           task_10 [subtask_20; subtask_21] subtask_21).
  - reflexivity.
  - reflexivity.
  - right. left.
  - reflexivity.
Defined.

(** C6.  [update_sub_task_status] never changes the status of a task: for
    every store and every request, each task has the same status after the
    call as before it, whether the call reported not-found or raised. *)
Theorem update_sub_task_status_keeps_task_status
    (s : Store) (task_id subtask_id : N) update (user_id k : N) :
  Task.status <$>
    tasks (store_after (update_sub_task_status task_id subtask_id update user_id) s) !! k
  = Task.status <$> tasks s !! k.
Proof.
  unfold store_after. rewrite update_sub_task_status_run.
  destruct (tasks s !! task_id); [|done].
  destruct (subtasks s !! task_id) as [l|]; [|done].
  by destruct (list_find _ l) as [[]|].
Qed.

(** C9.  [update_sub_task_status] does not look at the caller: two callers
    get the same outcome and leave the same store, and the not-found answer
    is given exactly when the task is absent, or has no subtask list, or
    its list holds no subtask with the identifier. *)
Theorem update_sub_task_status_ignores_caller
    (s : Store) (task_id subtask_id : N) update (user_a user_b : N) :
  update_sub_task_status task_id subtask_id update user_a s
  = update_sub_task_status task_id subtask_id update user_b s ∧
  (outcome (update_sub_task_status task_id subtask_id update user_a) s
     = Raise (HTTPException 404 "Task or Subtask not found") ↔
   tasks s !! task_id = None ∨
   subtasks s !! task_id = None ∨
   ∃ l, subtasks s !! task_id = Some l ∧
        ∀ sub, sub ∈ l → SubTask.id sub ≠ subtask_id).
Proof.
  split; [reflexivity|]. unfold outcome. rewrite update_sub_task_status_run.
  destruct (tasks s !! task_id) as [d|]; [|by split; [left|]].
  destruct (subtasks s !! task_id) as [l|]; [|by split; [right; left|]].
  destruct (list_find _ l) as [[i x]|] eqn:Hf; simpl.
  - apply list_find_Some in Hf as (Hi & He & _).
    split; [done|]. intros [?|[?|(l' & [= <-] & Hno)]]; [done..|].
    destruct (Hno x); [|done]. by eapply list_elem_of_lookup_2.
  - split; [|done]. intros _. right. right. exists l. split; [done|].
    apply list_find_None in Hf. rewrite Forall_forall in Hf. exact Hf.
Qed.

(** ** Reading a task *)

(** C7.  [get_task] answers 404 "Task not found" exactly when the task is
    absent or belongs to another user; it raises nothing else, so the two
    cases give the caller the same answer and a foreign task is never
    reported with 401.  For the owner it returns the stored task, with
    its subtasks, and the store is never written. *)
Theorem get_task_not_found (s : Store) (task_id user_id : N) :
  (outcome (get_task task_id user_id) s = Raise (HTTPException 404 "Task not found") ↔
   tasks s !! task_id = None ∨
   ∃ d, tasks s !! task_id = Some d ∧ Task.user_id d ≠ user_id) ∧
  (∀ e, outcome (get_task task_id user_id) s = Raise e →
        e = HTTPException 404 "Task not found") ∧
  (∀ d, tasks s !! task_id = Some d → Task.user_id d = user_id →
        outcome (get_task task_id user_id) s = Ok (d, subtasks_of s task_id)) ∧
  store_after (get_task task_id user_id) s = s.
Proof.
  unfold outcome, store_after. rewrite get_task_run.
  destruct (tasks s !! task_id) as [d|].
  - case_bool_decide as Hu; simpl.
    + repeat split; try done.
      * intros [?|(d' & [= <-] & ?)]; done.
      * by intros d' [= <-] _.
    + repeat split; try done.
      * intros _. right. by exists d.
      * by intros e [= <-].
      * by intros d' [= <-] ?.
  - simpl. repeat split; try done.
    + by left.
    + by intros e [= <-].
Qed.

(** ** Creating a subtask *)

(** C8.  [create_subtask] answers 404 exactly when the task is absent, and
    otherwise succeeds whoever owns the task: the new subtask is PENDING
    with progress 0 and carries the acting user, it goes last in the
    task's subtask list, and the task is left PENDING with the progress
    that [calculate_progress] computes on the resulting store. *)
Theorem create_subtask_spec (s : Store) subtask (user_id uuid4 : N) :
  (outcome (create_subtask subtask user_id uuid4) s
     = Raise (HTTPException 404 "Task not found") ↔
   tasks s !! CreateSubTaskRequest.task_id subtask = None) ∧
  (∀ d, tasks s !! CreateSubTaskRequest.task_id subtask = Some d →
     ∃ sub d',
       outcome (create_subtask subtask user_id uuid4) s = Ok sub ∧
       SubTask.status sub = PENDING ∧
       SubTask.progress_percentage sub = 0 ∧
       SubTask.user_id sub = user_id ∧
       SubTask.id sub = uuid4 ∧
       SubTask.task_id sub = CreateSubTaskRequest.task_id subtask ∧
       subtasks (store_after (create_subtask subtask user_id uuid4) s)
         !! CreateSubTaskRequest.task_id subtask
         = Some (subtasks_of s (CreateSubTaskRequest.task_id subtask) ++ [sub]) ∧
       tasks (store_after (create_subtask subtask user_id uuid4) s)
         !! CreateSubTaskRequest.task_id subtask = Some d' ∧
       Task.status d' = PENDING ∧
       Task.user_id d' = Task.user_id d ∧
       outcome (calculate_progress (CreateSubTaskRequest.task_id subtask))
               (store_after (create_subtask subtask user_id uuid4) s)
         = Ok (Task.progress_percentage d')).
Proof.
  unfold outcome, store_after. rewrite create_subtask_run. simpl.
  destruct (tasks s !! CreateSubTaskRequest.task_id subtask) as [d|] eqn:E; simpl.
  - split; [done|]. intros d0 [= <-].
    eexists _, _. rewrite !lookup_insert_eq.
    repeat split.
    unfold calculate_progress. unfold_M. simpl. rewrite lookup_insert_eq. simpl.
    by destruct (default [] (subtasks s !! CreateSubTaskRequest.task_id subtask)
                 ++ [new_subtask subtask user_id uuid4]) eqn:El;
      [apply app_eq_nil in El as [_ ?]|].
  - split; [done|]. by intros d0.
Qed.

(** ** Progress in the reachable stores *)

(** C10.  In every store reachable from the empty one, every task's stored
    progress is the number 0 and every subtask's stored progress is 0. *)
Theorem reachable_progress_all_zero (s : Store) :
  reachable s →
  (∀ k d, tasks s !! k = Some d → (Task.progress_percentage d == 0)%Q) ∧
  (∀ k l sub, subtasks s !! k = Some l → sub ∈ l →
              SubTask.progress_percentage sub = 0).
Proof.
  intros [Ht Hs]%reachable_progress_zero. split; [exact Ht|].
  intros k l sub Hl Hin. specialize (Hs k l Hl). simpl in Hs.
  rewrite Forall_forall in Hs. by apply Hs.
Qed.

Lemma reachable_progress_all_zero_witness :
  (∀ k d, tasks store_subtasks !! k = Some d → (Task.progress_percentage d == 0)%Q) ∧
  (∀ k l sub, subtasks store_subtasks !! k = Some l → sub ∈ l →
              SubTask.progress_percentage sub = 0).
Proof.
  apply (reachable_progress_all_zero store_subtasks).
  apply reachable_run. apply reachable_empty.
Defined.

(** C5.  In every reachable store, a task with at least one subtask has as
    its progress the arithmetic mean of its subtasks' progress.  The stores
    left by a subtask creation or by a subtask status update are reachable
    stores, so the equation holds right after each of them. *)
Theorem reachable_progress_is_mean (s : Store) (task_id : N) d :
  reachable s →
  tasks s !! task_id = Some d →
  subtasks_of s task_id ≠ [] →
  (Task.progress_percentage d
   == mean (SubTask.progress_percentage <$> subtasks_of s task_id))%Q.
Proof.
  intros [Ht Hs]%reachable_progress_zero Hd _.
  rewrite (Ht _ _ Hd). symmetry. apply mean_zeros, Forall_fmap.
  unfold subtasks_of. destruct (subtasks s !! task_id) as [l|] eqn:El; [|constructor].
  exact (Hs _ _ El).
Qed.

Lemma reachable_progress_is_mean_witness :
  (Task.progress_percentage task_10
   == mean (SubTask.progress_percentage <$> subtasks_of store_subtasks 10%N))%Q.
Proof.
  apply (reachable_progress_is_mean store_subtasks 10%N).
  - apply reachable_run. apply reachable_empty.
  - reflexivity.
  - discriminate.
Defined.

(** C4 (the code departs from the claim).  A reachable store holds a task
    with no subtask whose status is COMPLETED and whose progress is 0, not
    100: Alice creates task 10 and asks for COMPLETED, the handler writes
    the status and raises before it writes the progress. *)
Theorem completed_task_without_subtasks_has_progress_zero :
  reachable (run (session_task ++ [OpUpdateTaskStatus 10%N (set_to COMPLETED) alice])
               empty_store) ∧
  subtasks_of (run (session_task ++ [OpUpdateTaskStatus 10%N (set_to COMPLETED) alice])
                 empty_store) 10%N = [] ∧
  tasks (run (session_task ++ [OpUpdateTaskStatus 10%N (set_to COMPLETED) alice])
           empty_store) !! 10%N
  = Some (Task.mk "report" None None (Some 1) 10%N alice COMPLETED 0 []).
Proof.
  split; [apply reachable_run, reachable_empty|]. split; reflexivity.
Qed.

(** ** Sessions *)

Lemma find_session_None (us : list (UUID * User.t)) tok :
  find_session us tok = None ↔
  ∀ uid u, (uid, u) ∈ us → User.session_token u ≠ tok.
Proof.
  induction us as [|[k v] us IH]; simpl.
  - split; [|done]. intros _ uid u Hin. by apply elem_of_nil in Hin.
  - destruct (String.eqb_spec (User.session_token v) tok) as [He|Hne].
    + split; [done|]. intros H. destruct (H k v); [left|done].
    + rewrite IH. split.
      * intros H uid u [[= -> ->]|Hin]%elem_of_cons; [done|by eapply H].
      * intros H uid u Hin. apply (H uid u). by right.
Qed.

Lemma find_session_Some (us : list (UUID * User.t)) tok uid :
  find_session us tok = Some uid →
  ∃ u, (uid, u) ∈ us ∧ User.session_token u = tok.
Proof.
  induction us as [|[k v] us IH]; simpl; [done|].
  destruct (String.eqb_spec (User.session_token v) tok) as [He|Hne].
  - intros [= <-]. exists v. split; [left|done].
  - intros (u & Hin & Hu)%IH. exists u. split; [by right|done].
Qed.

(** X1.  [authenticate_user] answers 401 "Invalid session token" exactly
    when no stored user holds the presented token; when it returns a user
    identifier, that user is stored and holds the token; and it never
    writes to the store. *)
Theorem authenticate_user_spec (s : Store) (x_session_token : string) :
  (outcome (authenticate_user x_session_token) s
     = Raise (HTTPException 401 "Invalid session token") ↔
   ∀ uid u, (uid, u) ∈ users s → User.session_token u ≠ x_session_token) ∧
  (∀ uid, outcome (authenticate_user x_session_token) s = Ok uid →
     ∃ u, (uid, u) ∈ users s ∧ User.session_token u = x_session_token) ∧
  store_after (authenticate_user x_session_token) s = s.
Proof.
  unfold outcome, store_after, authenticate_user. unfold_M. simpl.
  destruct (find_session (users s) x_session_token) as [uid|] eqn:Hf; simpl.
  - repeat split; try done.
    + intros H. apply find_session_None in H. congruence.
    + intros uid' [= <-]. by apply find_session_Some.
  - repeat split; try done. intros _. by apply find_session_None.
Qed.

Lemma find_session_dict_setitem (us : list (UUID * User.t)) k v :
  (∀ uid u, (uid, u) ∈ us → uid ≠ k →
            User.session_token u ≠ User.session_token v) →
  find_session (dict_setitem k v us) (User.session_token v) = Some k.
Proof.
  induction us as [|[k' v'] us IH]; intros H; simpl.
  - by rewrite String.eqb_refl.
  - destruct (N.eqb_spec k' k) as [->|Hne]; simpl.
    + by rewrite String.eqb_refl.
    + destruct (String.eqb_spec (User.session_token v') (User.session_token v))
        as [He|_].
      * destruct (H k' v'); [left|done|done].
      * apply IH. intros uid u Hin. apply H. by right.
Qed.

(** X2.  Registration followed by authentication: when no user stored
    under another identifier holds the token that [create_user] draws, the
    token authenticates as the user just created. *)
Theorem create_user_then_authenticate (s : Store) user (uuid4 : N) (token_hex : string) :
  (∀ uid u, (uid, u) ∈ users s → uid ≠ uuid4 → User.session_token u ≠ token_hex) →
  outcome (authenticate_user token_hex)
          (store_after (create_user user uuid4 token_hex) s) = Ok uuid4.
Proof.
  intros H. unfold outcome, store_after, authenticate_user, create_user. unfold_M.
  simpl.
  pose proof (find_session_dict_setitem (users s) uuid4
                (User.mk (CreateUserRequest.username user) (CreateUserRequest.name user)
                         (CreateUserRequest.email user) token_hex) H) as Hf.
  simpl in Hf. by rewrite Hf.
Qed.

Lemma create_user_then_authenticate_witness :
  outcome (authenticate_user "c3")
          (store_after (create_user (CreateUserRequest.mk "carol" "Carol" "carol@example.org")
                          3%N "c3") store_subtasks) = Ok 3%N.
Proof.
  apply (create_user_then_authenticate store_subtasks).
  intros uid u Hin _. vm_compute in Hin.
  apply elem_of_cons in Hin as [[= -> ->]|Hin]; [done|].
  apply elem_of_cons in Hin as [[= -> ->]|Hin]; [done|].
  by apply elem_of_nil in Hin.
Defined.

Lemma handle_keeps_users op s :
  (∀ user uuid4 token_hex, op ≠ OpCreateUser user uuid4 token_hex) →
  users (store_after (handle op) s) = users s.
Proof.
  intros Hop. unfold store_after.
  destruct op as [user u tok|task uid u|subtask uid u|uid|tid uid|tid upd uid
                 |tid sid upd uid|tid uid]; simpl; unfold fmap, M_fmap, mbind, M_bind.
  - by destruct (Hop user u tok).
  - by rewrite create_task_run.
  - rewrite create_subtask_run. simpl.
    by destruct (tasks s !! CreateSubTaskRequest.task_id subtask).
  - done.
  - rewrite get_task_run. destruct (tasks s !! tid); [|done]. by case_bool_decide.
  - rewrite update_task_status_run. destruct (tasks s !! tid); [|done].
    by case_bool_decide.
  - rewrite update_sub_task_status_run. destruct (tasks s !! tid); [|done].
    destruct (subtasks s !! tid) as [l|]; [|done].
    by destruct (list_find _ l) as [[]|].
  - rewrite delete_task_run. destruct (tasks s !! tid); [|done]. by case_bool_decide.
Qed.

Lemma dict_setitem_keys {V} (k : N) (v : V) (d : list (N * V)) :
  (dict_setitem k v d).*1 = if decide (k ∈ d.*1) then d.*1 else d.*1 ++ [k].
Proof.
  induction d as [|[k' v'] d IH]; [done|].
  cbn [dict_setitem]. rewrite (fmap_cons fst (k', v') d). cbn [fst].
  destruct (N.eqb_spec k' k) as [->|Hne].
  - rewrite fmap_cons. cbn [fst]. rewrite decide_True; [done|left].
  - rewrite fmap_cons, IH. cbn [fst]. destruct (decide (k ∈ d.*1)) as [Hin|Hout].
    + rewrite decide_True; [done|by right].
    + rewrite decide_False; [done|]. intros [?|?]%elem_of_cons; congruence.
Qed.

Lemma dict_setitem_new {V} (k : N) (v : V) (d : list (N * V)) :
  k ∉ d.*1 → dict_setitem k v d = d ++ [(k, v)].
Proof.
  induction d as [|[k' v'] d IH]; simpl; intros Hk; [done|].
  destruct (N.eqb_spec k' k) as [->|Hne].
  - destruct Hk. left.
  - rewrite IH; [done|]. intros Hin. apply Hk. by right.
Qed.

Lemma find_session_app (us us' : list (UUID * User.t)) tok uid :
  find_session us tok = Some uid → find_session (us ++ us') tok = Some uid.
Proof.
  induction us as [|[k v] us IH]; simpl; [done|].
  by destruct (String.eqb (User.session_token v) tok).
Qed.

(** X3.  A session does not expire: a token that authenticates as a user
    authenticates as the same user after any further request, whether that
    request returned or raised, as long as a [create_user] among them draws
    an identifier that is not yet in use. *)
Theorem session_persists (s : Store) (op : Op) (x_session_token : string) (uid : N) :
  outcome (authenticate_user x_session_token) s = Ok uid →
  draws_new_user_id op s →
  outcome (authenticate_user x_session_token) (store_after (handle op) s) = Ok uid.
Proof.
  intros Hs Hnew.
  assert (find_session (users s) x_session_token = Some uid) as Hf.
  { revert Hs. unfold outcome, authenticate_user. unfold_M. simpl.
    destruct (find_session (users s) x_session_token); [|done]. by intros [= ->]. }
  assert (find_session (users (store_after (handle op) s)) x_session_token = Some uid)
    as Hf'.
  { destruct op as [user u tok| | | | | | |];
      try (by rewrite (handle_keeps_users _ s)).
    simpl in Hnew. unfold store_after. simpl. unfold create_user. unfold_M. simpl.
    rewrite dict_setitem_new by done. by apply find_session_app. }
  unfold outcome, authenticate_user. unfold mbind, M_bind, get_store.
  by rewrite Hf'.
Qed.

Lemma session_persists_witness :
  outcome (authenticate_user "a1")
          (store_after (handle (OpUpdateTaskStatus 10%N (set_to COMPLETED) alice))
             store_subtasks) = Ok alice.
Proof.
  apply (session_persists store_subtasks); [reflexivity|exact I].
Defined.

Lemma dict_get_setitem {V} (k k' : N) (v : V) (d : list (N * V)) :
  dict_get k' (dict_setitem k v d) = if decide (k' = k) then Some v else dict_get k' d.
Proof.
  induction d as [|[k0 v0] d IH]; simpl.
  - destruct (N.eqb_spec k k'); case_decide; congruence.
  - destruct (N.eqb_spec k0 k) as [->|Hne]; simpl.
    + destruct (N.eqb_spec k k'); case_decide; congruence.
    + rewrite IH. destruct (N.eqb_spec k0 k'); case_decide; congruence.
Qed.

(** X4.  [create_user] always returns, with the drawn identifier and
    token; afterwards [users] holds the new record under that identifier
    and every other user as before, and no task or subtask has changed. *)
Theorem create_user_spec (s : Store) user (uuid4 : N) (token_hex : string) :
  outcome (create_user user uuid4 token_hex) s
    = Ok (uuid4, token_hex,
          User.mk (CreateUserRequest.username user) (CreateUserRequest.name user)
                  (CreateUserRequest.email user) token_hex) ∧
  dict_get uuid4 (users (store_after (create_user user uuid4 token_hex) s))
    = Some (User.mk (CreateUserRequest.username user) (CreateUserRequest.name user)
                    (CreateUserRequest.email user) token_hex) ∧
  (∀ k, k ≠ uuid4 →
        dict_get k (users (store_after (create_user user uuid4 token_hex) s))
        = dict_get k (users s)) ∧
  tasks (store_after (create_user user uuid4 token_hex) s) = tasks s ∧
  subtasks (store_after (create_user user uuid4 token_hex) s) = subtasks s.
Proof.
  unfold outcome, store_after, create_user. unfold_M. simpl.
  repeat split.
  - rewrite dict_get_setitem. by rewrite decide_True.
  - intros k Hk. rewrite dict_get_setitem. by rewrite decide_False.
Qed.

(** X5.  In every reachable store the identifiers of [users] are pairwise
    distinct: registering under an identifier already in use replaces that
    user in place and adds no second entry. *)
Theorem reachable_users_distinct (s : Store) :
  reachable s → NoDup (users s).*1.
Proof.
  induction 1 as [|s op _ IH]; [constructor|].
  destruct op as [user u tok| | | | | | |];
    try (by rewrite (handle_keeps_users _ s)).
  unfold store_after. simpl. unfold create_user. unfold_M. simpl.
  rewrite dict_setitem_keys. case_decide as Hin; [done|].
  apply NoDup_app. split; [done|]. split; [|apply NoDup_singleton].
  intros x Hx [->|Hn]%elem_of_cons; [done|by apply elem_of_nil in Hn].
Qed.

Lemma reachable_users_distinct_witness : NoDup (users store_subtasks).*1.
Proof.
  apply (reachable_users_distinct store_subtasks).
  apply reachable_run. apply reachable_empty.
Defined.

(** ** Creating, listing and deleting tasks *)

(** X6.  [create_task] always returns; the task it returns is PENDING with
    progress 0, carries the drawn identifier and the caller as owner, and
    is what [get_task] then returns to that caller.  Tasks under other keys,
    the subtask lists and the users are as before. *)
Theorem create_task_then_get_task (s : Store) task (user_id uuid4 : N) :
  ∃ d,
    outcome (create_task task user_id uuid4) s = Ok d ∧
    Task.id d = uuid4 ∧ Task.user_id d = user_id ∧
    Task.status d = PENDING ∧ Task.progress_percentage d = 0%Q ∧
    Task.sub_tasks_id d = [] ∧
    outcome (get_task uuid4 user_id) (store_after (create_task task user_id uuid4) s)
      = Ok (d, subtasks_of s uuid4) ∧
    (∀ k, k ≠ uuid4 →
          tasks (store_after (create_task task user_id uuid4) s) !! k = tasks s !! k) ∧
    subtasks (store_after (create_task task user_id uuid4) s) = subtasks s ∧
    users (store_after (create_task task user_id uuid4) s) = users s.
Proof.
  unfold outcome, store_after. rewrite create_task_run. simpl.
  eexists. repeat split.
  - rewrite get_task_run. simpl. rewrite lookup_insert_eq. simpl.
    by rewrite bool_decide_eq_true_2.
  - intros k Hk. by rewrite lookup_insert_ne.
Qed.

(** X7.  [get_tasks] always returns, does not write to the store, and its
    answer holds a task under a key exactly when [tasks] holds that task
    under that key and the caller owns it. *)
Theorem get_tasks_spec (s : Store) (user_id : N) :
  ∃ owned,
    outcome (get_tasks user_id) s = Ok owned ∧
    (∀ k d, owned !! k = Some d ↔ tasks s !! k = Some d ∧ Task.user_id d = user_id) ∧
    store_after (get_tasks user_id) s = s.
Proof.
  unfold outcome, store_after, get_tasks. unfold_M. simpl.
  eexists. split; [done|]. split; [|done].
  intros k d. by rewrite map_lookup_filter_Some.
Qed.

(** X8.  [delete_task] answers 404 exactly when the task is absent or owned
    by another user.  For the owner it returns and removes the task together
    with its whole subtask list; every other task and subtask list, and the
    users, are as before. *)
Theorem delete_task_spec (s : Store) (task_id user_id : N) :
  (outcome (delete_task task_id user_id) s = Raise (HTTPException 404 "Task not found") ↔
   tasks s !! task_id = None ∨
   ∃ d, tasks s !! task_id = Some d ∧ Task.user_id d ≠ user_id) ∧
  (∀ d, tasks s !! task_id = Some d → Task.user_id d = user_id →
     outcome (delete_task task_id user_id) s = Ok "Task deleted successfully" ∧
     tasks (store_after (delete_task task_id user_id) s) !! task_id = None ∧
     subtasks (store_after (delete_task task_id user_id) s) !! task_id = None ∧
     (∀ k, k ≠ task_id →
        tasks (store_after (delete_task task_id user_id) s) !! k = tasks s !! k ∧
        subtasks (store_after (delete_task task_id user_id) s) !! k = subtasks s !! k) ∧
     users (store_after (delete_task task_id user_id) s) = users s).
Proof.
  unfold outcome, store_after. rewrite delete_task_run.
  destruct (tasks s !! task_id) as [d|].
  - case_bool_decide as Hu; simpl.
    + split.
      * split; [done|]. intros [?|(d' & [= <-] & ?)]; done.
      * intros d' _ _. rewrite !lookup_delete_eq. repeat split; try done.
        -- by rewrite lookup_delete_ne.
        -- by rewrite lookup_delete_ne.
    + split.
      * split; [|done]. intros _. right. by exists d.
      * by intros d' [= <-] ?.
  - simpl. split; [|done]. split; [by left|done].
Qed.

(** X9.  After the owner has deleted a task, every request that names it
    is answered 404, whoever the caller: reading it, deleting it again,
    updating its status, adding a subtask to it, and updating the status of
    any subtask under it. *)
Theorem deleted_task_is_not_found
    (s : Store) (task_id owner : N) d (caller subtask_id uuid4 : N) update subtask :
  tasks s !! task_id = Some d →
  Task.user_id d = owner →
  CreateSubTaskRequest.task_id subtask = task_id →
  outcome (get_task task_id caller) (store_after (delete_task task_id owner) s)
    = Raise (HTTPException 404 "Task not found") ∧
  outcome (delete_task task_id caller) (store_after (delete_task task_id owner) s)
    = Raise (HTTPException 404 "Task not found") ∧
  outcome (update_task_status task_id update caller)
          (store_after (delete_task task_id owner) s)
    = Raise (HTTPException 404 "Task not found") ∧
  outcome (create_subtask subtask caller uuid4)
          (store_after (delete_task task_id owner) s)
    = Raise (HTTPException 404 "Task not found") ∧
  outcome (update_sub_task_status task_id subtask_id update caller)
          (store_after (delete_task task_id owner) s)
    = Raise (HTTPException 404 "Task or Subtask not found").
Proof.
  intros Hd Hu Hsub. unfold outcome, store_after.
  rewrite (delete_task_run task_id owner s), Hd, bool_decide_eq_true_2 by done.
  rewrite get_task_run, delete_task_run, update_task_status_run, create_subtask_run,
    update_sub_task_status_run.
  simpl. rewrite Hsub. rewrite !lookup_delete_eq. done.
Qed.

Lemma deleted_task_is_not_found_witness :
  outcome (get_task 10%N bob) store_deleted
    = Raise (HTTPException 404 "Task not found") ∧
  outcome (delete_task 10%N bob) store_deleted
    = Raise (HTTPException 404 "Task not found") ∧
  outcome (update_task_status 10%N (set_to COMPLETED) bob) store_deleted
    = Raise (HTTPException 404 "Task not found") ∧
  outcome (create_subtask (CreateSubTaskRequest.mk 10%N "late" None None None) bob 22%N)
          store_deleted
    = Raise (HTTPException 404 "Task not found") ∧
  outcome (update_sub_task_status 10%N 21%N (set_to COMPLETED) bob) store_deleted
    = Raise (HTTPException 404 "Task or Subtask not found").
Proof.
  apply (deleted_task_is_not_found store_subtasks 10%N alice task_10); reflexivity.
Defined.

(** X10.  [update_task_status] and [delete_task] leave the tasks of other
    owners alone: a stored task that the caller does not own is stored
    unchanged after either call, whatever task the call names. *)
Theorem foreign_task_untouched (s : Store) (task_id caller k : N) update d :
  tasks s !! k = Some d →
  Task.user_id d ≠ caller →
  tasks (store_after (update_task_status task_id update caller) s) !! k = Some d ∧
  tasks (store_after (delete_task task_id caller) s) !! k = Some d.
Proof.
  intros Hd Hu. unfold store_after.
  rewrite update_task_status_run, delete_task_run.
  destruct (tasks s !! task_id) as [d'|] eqn:E; [|done].
  case_bool_decide as Hc; [|done]. simpl.
  assert (k ≠ task_id) by congruence.
  by rewrite lookup_insert_ne, lookup_delete_ne.
Qed.

Lemma foreign_task_untouched_witness :
  tasks (store_after (update_task_status 10%N (set_to COMPLETED) bob) store_subtasks)
    !! 10%N = Some task_10 ∧
  tasks (store_after (delete_task 10%N bob) store_subtasks) !! 10%N = Some task_10.
Proof.
  apply (foreign_task_untouched store_subtasks 10%N bob 10%N); [reflexivity|done].
Defined.

(** X11.  [update_task_status] never returns: for every store and every
    requested status it answers 404 when the task is absent or not the
    caller's, and raises [AttributeError] in every other case. *)
Theorem update_task_status_never_returns (s : Store) (task_id user_id : N) update :
  (outcome (update_task_status task_id update user_id) s
     = Raise (HTTPException 404 "Task not found") ∧
   (tasks s !! task_id = None ∨
    ∃ d, tasks s !! task_id = Some d ∧ Task.user_id d ≠ user_id)) ∨
  (outcome (update_task_status task_id update user_id) s
     = Raise (AttributeError "COMPLETE") ∧
   ∃ d, tasks s !! task_id = Some d ∧ Task.user_id d = user_id).
Proof.
  unfold outcome. rewrite update_task_status_run.
  destruct (tasks s !! task_id) as [d|]; [|left; split; [done|by left]].
  case_bool_decide.
  - right. split; [done|by exists d].
  - left. split; [done|]. right. by exists d.
Qed.

(** X12.  [update_sub_task_status] never returns either: it answers 404
    or raises [AttributeError], for every store, caller and requested
    status. *)
Theorem update_sub_task_status_never_returns
    (s : Store) (task_id subtask_id user_id : N) update :
  outcome (update_sub_task_status task_id subtask_id update user_id) s
    = Raise (HTTPException 404 "Task or Subtask not found") ∨
  outcome (update_sub_task_status task_id subtask_id update user_id) s
    = Raise (AttributeError "COMPLETE").
Proof.
  unfold outcome. rewrite update_sub_task_status_run.
  destruct (tasks s !! task_id); [|by left].
  destruct (subtasks s !! task_id) as [l|]; [|by left].
  destruct (list_find _ l) as [[]|]; [by right|by left].
Qed.

(** ** [calculate_progress] on any store *)

Lemma fold_left_add_foldr (xs : list Z) (a : Z) :
  fold_left Z.add xs a = a + foldr Z.add 0 xs.
Proof.
  revert a. induction xs as [|x xs IH]; intros a; simpl; [lia|]. rewrite IH. lia.
Qed.

Lemma sum_foldr (xs : list Z) : sum xs = foldr Z.add 0 xs.
Proof. unfold sum. by rewrite fold_left_add_foldr. Qed.

Lemma calculate_progress_run task_id s :
  calculate_progress task_id s =
  match subtasks_of s task_id with
  | [] =>
      match tasks s !! task_id with
      | Some d => (Ok (if bool_decide (Task.status d = COMPLETED) then 100%Q else 0%Q), s)
      | None => (Raise (KeyError task_id), s)
      end
  | _ :: _ => (Ok (mean (SubTask.progress_percentage <$> subtasks_of s task_id)), s)
  end.
Proof.
  unfold calculate_progress, subtasks_of. unfold_M. simpl.
  destruct (default [] (subtasks s !! task_id)) as [|x l].
  - by destruct (tasks s !! task_id).
  - unfold mean. by rewrite sum_foldr, length_fmap.
Qed.



(** X14.  For a key without subtasks, [calculate_progress] returns 100
    when the stored task is COMPLETED and 0 otherwise, and raises
    [KeyError] when no task is stored under the key; the store is not
    written in either case. *)
Theorem calculate_progress_without_subtasks (s : Store) (task_id : N) :
  subtasks_of s task_id = [] →
  (∀ d, tasks s !! task_id = Some d →
     calculate_progress task_id s
     = (Ok (if bool_decide (Task.status d = COMPLETED) then 100%Q else 0%Q), s)) ∧
  (tasks s !! task_id = None →
     calculate_progress task_id s = (Raise (KeyError task_id), s)).
Proof.
  intros He. rewrite calculate_progress_run, He.
  split; [intros d Hd|intros Hd]; by rewrite Hd.
Qed.

Lemma calculate_progress_without_subtasks_witness :
  (∀ d, tasks store_task !! 10%N = Some d →
     calculate_progress 10%N store_task
     = (Ok (if bool_decide (Task.status d = COMPLETED) then 100%Q else 0%Q),
        store_task)) ∧
  (tasks store_task !! 10%N = None →
     calculate_progress 10%N store_task = (Raise (KeyError 10%N), store_task)).
Proof.
  apply (calculate_progress_without_subtasks store_task 10%N). reflexivity.
Defined.

Lemma foldr_add_bounds (xs : list Z) :
  Forall (λ x, 0 ≤ x ≤ 100) xs →
  0 ≤ foldr Z.add 0 xs ≤ 100 * Z.of_nat (length xs).
Proof.
  induction 1 as [|x xs Hx _ IH]; simpl; lia.
Qed.

(** X15.  For a stored task whose subtasks all have a progress between 0
    and 100, [calculate_progress] returns, and what it returns lies
    between 0 and 100. *)
Theorem calculate_progress_in_range (s : Store) (task_id : N) :
  is_Some (tasks s !! task_id) →
  (∀ sub, sub ∈ subtasks_of s task_id → 0 ≤ SubTask.progress_percentage sub ≤ 100) →
  ∃ p, calculate_progress task_id s = (Ok p, s) ∧ (0 <= p)%Q ∧ (p <= 100)%Q.
Proof.
  intros [d Hd] Hall. rewrite calculate_progress_run, Hd.
  destruct (subtasks_of s task_id) as [|x l] eqn:El.
  - eexists. split; [done|]. by case_bool_decide.
  - eexists. split; [done|].
    assert (Forall (λ z, 0 ≤ z ≤ 100) (SubTask.progress_percentage <$> x :: l)) as Hb.
    { apply Forall_fmap, Forall_forall. intros sub Hin. by apply Hall. }
    apply foldr_add_bounds in Hb. unfold mean.
    set (total := foldr Z.add 0 (SubTask.progress_percentage <$> x :: l)) in *.
    set (n := Z.of_nat (length (SubTask.progress_percentage <$> x :: l))) in *.
    assert (0 < n) as Hn by (subst n; simpl; lia).
    assert (0 < inject_Z n)%Q as Hq by (by rewrite (Zlt_Qlt 0 n) in Hn).
    split.
    + apply Qle_shift_div_l; [done|]. rewrite Qmult_0_l.
      rewrite (Zle_Qle 0 total) in Hb. tauto.
    + apply Qle_shift_div_r; [done|].
      change 100%Q with (inject_Z 100). rewrite <- inject_Z_mult, <- Zle_Qle. lia.
Qed.

Lemma calculate_progress_in_range_witness :
  ∃ p, calculate_progress 10%N store_subtasks = (Ok p, store_subtasks) ∧
       (0 <= p)%Q ∧ (p <= 100)%Q.
Proof.
  apply (calculate_progress_in_range store_subtasks 10%N).
  - by exists task_10.
  - intros sub Hin. vm_compute in Hin.
    apply elem_of_cons in Hin as [->|Hin]; [done|].
    apply elem_of_cons in Hin as [->|Hin]; [done|].
    by apply elem_of_nil in Hin.
Defined.

(** ** The shape of the reachable stores *)

Lemma shape_step op s :
  tasks_keyed s ∧ subtasks_attached s →
  tasks_keyed (store_after (handle op) s) ∧ subtasks_attached (store_after (handle op) s).
Proof.
  intros [Ht Hs]. unfold store_after.
  destruct op as [user u tok|task uid u|subtask uid u|uid|tid uid|tid upd uid
                 |tid sid upd uid|tid uid]; simpl; unfold fmap, M_fmap, mbind, M_bind.
  - done.
  - rewrite create_task_run. simpl. split.
    + by apply map_Forall_insert_2.
    + intros k l Hl. destruct (Hs k l Hl) as (? & ? & ?). simpl.
      repeat split; [done| |done]. apply lookup_insert_is_Some'. by right.
  - rewrite create_subtask_run. simpl.
    destruct (tasks s !! CreateSubTaskRequest.task_id subtask) as [d|] eqn:E; [|done].
    destruct (Ht _ _ E) as [Hid Hsub]. split.
    + by apply map_Forall_insert_2.
    + apply map_Forall_insert_2; simpl.
      * repeat split.
        -- intros [_ ?]%app_eq_nil. done.
        -- rewrite lookup_insert_eq. by eexists.
        -- apply Forall_app_2; [|by repeat constructor].
           destruct (subtasks s !! CreateSubTaskRequest.task_id subtask) as [l|] eqn:El;
             [|constructor].
           by destruct (Hs _ _ El) as (? & ? & ?).
      * intros k l Hl. destruct (Hs k l Hl) as (? & ? & ?).
        repeat split; [done| |done]. apply lookup_insert_is_Some'. by right.
  - done.
  - rewrite get_task_run. destruct (tasks s !! tid); [|done]. by case_bool_decide.
  - rewrite update_task_status_run.
    destruct (tasks s !! tid) as [d|] eqn:E; [|done].
    case_bool_decide; [|done]. simpl. split.
    + apply map_Forall_insert_2; [|done]. exact (Ht _ _ E).
    + intros k l Hl. destruct (Hs k l Hl) as (? & ? & ?). simpl.
      repeat split; [done| |done]. apply lookup_insert_is_Some'. by right.
  - rewrite update_sub_task_status_run.
    destruct (tasks s !! tid) as [d|] eqn:E; [|done].
    destruct (subtasks s !! tid) as [l|] eqn:El; [|done].
    destruct (list_find _ l) as [[i x]|]; [|done]. simpl. split; [done|].
    destruct (Hs _ _ El) as (Hne & _ & Hall).
    apply map_Forall_insert_2; [|done]. simpl. repeat split.
    + intros Hnil. apply Hne. apply (f_equal length) in Hnil.
      rewrite length_alter in Hnil. by destruct l.
    + by eexists.
    + by apply Forall_alter.
  - rewrite delete_task_run.
    destruct (tasks s !! tid) as [d|] eqn:E; [|done].
    case_bool_decide; [|done]. simpl. split; [by apply map_Forall_delete|].
    intros k l Hl. simpl in Hl. apply lookup_delete_Some in Hl as [Hk Hl].
    destruct (Hs k l Hl) as (? & ? & ?).
    simpl. repeat split; [done| |done]. by rewrite lookup_delete_ne.
Qed.

Lemma reachable_shape s : reachable s → tasks_keyed s ∧ subtasks_attached s.
Proof.
  induction 1 as [|s op _ IH]; [|by apply shape_step].
  split; apply map_Forall_empty.
Qed.

(** X16.  In every reachable store a task is stored under its own [id],
    and its [sub_tasks_id] is empty: no handler ever records a subtask
    identifier in the task, however many subtasks the task has. *)
Theorem reachable_task_shape (s : Store) (k : N) d :
  reachable s →
  tasks s !! k = Some d →
  Task.id d = k ∧ Task.sub_tasks_id d = [].
Proof.
  intros [Ht _]%reachable_shape Hd. exact (Ht _ _ Hd).
Qed.

Lemma reachable_task_shape_witness :
  Task.id task_10 = 10%N ∧ Task.sub_tasks_id task_10 = [].
Proof.
  apply (reachable_task_shape store_subtasks 10%N task_10).
  - apply reachable_run. apply reachable_empty.
  - reflexivity.
Defined.

(** X17.  In every reachable store a subtask list is never empty, sits
    under the key of a task that is stored, and holds only subtasks whose
    [task_id] is that key: no subtask outlives its task. *)
Theorem reachable_subtasks_attached (s : Store) (k : N) (l : list SubTask.t) :
  reachable s →
  subtasks s !! k = Some l →
  l ≠ [] ∧ is_Some (tasks s !! k) ∧ ∀ sub, sub ∈ l → SubTask.task_id sub = k.
Proof.
  intros [_ Hs]%reachable_shape Hl. destruct (Hs _ _ Hl) as (Hne & Ht & Hall).
  repeat split; [done..|]. intros sub Hin. rewrite Forall_forall in Hall. by apply Hall.
Qed.

Lemma reachable_subtasks_attached_witness :
  [subtask_20; subtask_21] ≠ [] ∧ is_Some (tasks store_subtasks !! 10%N) ∧
  ∀ sub, sub ∈ [subtask_20; subtask_21] → SubTask.task_id sub = 10%N.
Proof.
  apply (reachable_subtasks_attached store_subtasks 10%N).
  - apply reachable_run. apply reachable_empty.
  - reflexivity.
Defined.

(** ** Which subtask a status update writes *)

(** X18.  On an existing task, [update_sub_task_status] writes the
    requested status into the first subtask of the list that carries the
    identifier, and into nothing else: every other position of the list,
    and every other subtask list, is as before. *)
Theorem update_sub_task_status_writes_first
    (s : Store) (task_id subtask_id user_id : N) update d l (i : nat) sub :
  tasks s !! task_id = Some d →
  subtasks s !! task_id = Some l →
  l !! i = Some sub →
  SubTask.id sub = subtask_id →
  (∀ j y, l !! j = Some y → (j < i)%nat → SubTask.id y ≠ subtask_id) →
  subtasks (store_after (update_sub_task_status task_id subtask_id update user_id) s)
    !! task_id
    = Some (<[i := SubTask.set_status (StatusUpdateRequest.status update) sub]> l) ∧
  ∀ k, k ≠ task_id →
    subtasks (store_after (update_sub_task_status task_id subtask_id update user_id) s) !! k
    = subtasks s !! k.
Proof.
  intros Hd Hl Hi He Hmin. unfold store_after.
  rewrite update_sub_task_status_run, Hd, Hl.
  assert (list_find (λ x, SubTask.id x = subtask_id) l = Some (i, sub)) as ->.
  { apply list_find_Some. repeat split; [done..|]. intros j y Hj Hlt.
    by apply (Hmin j y). }
  simpl. split.
  - rewrite lookup_insert_eq. f_equal.
    apply list_eq. intros j. destruct (decide (i = j)) as [<-|Hne].
    + rewrite list_lookup_alter, decide_True, Hi by done. simpl.
      rewrite list_lookup_insert_eq; [done|]. by eapply lookup_lt_Some.
    + by rewrite list_lookup_alter_ne, list_lookup_insert_ne.
  - intros k Hk. by rewrite lookup_insert_ne.
Qed.

Lemma update_sub_task_status_writes_first_witness :
  subtasks (store_after (update_sub_task_status 10%N 21%N (set_to INCOMPLETE) bob)
              store_subtasks) !! 10%N
    = Some (<[1%nat := SubTask.set_status (StatusUpdateRequest.status (set_to INCOMPLETE))
                         subtask_21]> [subtask_20; subtask_21]) ∧
  ∀ k, k ≠ 10%N →
    subtasks (store_after (update_sub_task_status 10%N 21%N (set_to INCOMPLETE) bob)
                store_subtasks) !! k
    = subtasks store_subtasks !! k.
Proof.
  apply (update_sub_task_status_writes_first store_subtasks 10%N 21%N bob
           (set_to INCOMPLETE) task_10 [subtask_20; subtask_21] 1%nat subtask_21).
  - reflexivity.
  - reflexivity.
  - reflexivity.
  - reflexivity.
  - intros [|j] y Hj Hlt; [|lia]. by injection Hj as <-.
Defined.

(** ** The outcomes of a request *)

